(** * ScholarStack paper page

    The static record sets of the page module, the [App] component that
    renders them into an element tree, and the Tailwind configuration,
    with the rendering properties of the page. *)

From Stdlib Require Import ZArith List Bool Ascii String Lia Sorted.
From Stdlib Require Import Numbers.DecimalString Numbers.DecimalZ Floats.PrimFloat.
From Stdlib Require Import Numbers.Cyclic.Int63.Uint63.
Import ListNotations.
Open Scope string_scope.
Open Scope Z_scope.

(** The animation parameters [0.1] and [0.6] denote, as in JavaScript, the
    nearest binary64 values. *)
#[local] Set Warnings "-inexact-float,-register-all".

(** ** JavaScript values *)

Module Js.

(** The values that occur in the object literals of the module and in the
    expressions interpolated into the markup. The numbers the page prints
    are integer literals and are kept as [Z]. *)
Inductive value : Type :=
| VUndef
| VNum (n : Z)
| VStr (s : string).

(** An object literal: its properties in source order. The literals of the
    page module bind each name once, so reading the first binding of a
    name is reading the property. *)
Definition obj : Type := list (string * value).

(** Property read [o.k]: a missing property reads as [undefined]. *)
Fixpoint get (o : obj) (k : string) : value :=
  match o with
  | [] => VUndef
  | (k', v) :: o' => if String.eqb k' k then v else get o' k
  end.

(** Number::toString on an integer that a binary64 number holds exactly
    and whose magnitude is below 10^21: there it prints every digit. The
    numbers of the page, the ids 1, 2, 3 and the array positions, are of
    this kind. *)
Definition Z_to_string (n : Z) : string :=
  NilEmpty.string_of_int (Z.to_int n).

(** ToString, as applied by template literals. *)
Definition to_string (v : value) : string :=
  match v with
  | VUndef => "undefined"
  | VNum n => Z_to_string n
  | VStr s => s
  end.

(** ToBoolean, as applied by the conditional operator. *)
Definition truthy (v : value) : bool :=
  match v with
  | VUndef => false
  | VNum n => negb (n =? 0)
  | VStr s => negb (String.eqb s EmptyString)
  end.

(** Array.prototype.join: the accumulator loop of the language definition.
    A separator goes before every element but the first, and an
    [undefined] element contributes the empty string. *)
Fixpoint join_from (first : bool) (sep : string) (l : list value) (R : string)
  : string :=
  match l with
  | [] => R
  | v :: l' =>
      let R1 := if first then R else R ++ sep in
      let next := match v with VUndef => EmptyString | _ => to_string v end in
      join_from false sep l' (R1 ++ next)
  end.

Definition join (l : list value) (sep : string) : string :=
  join_from true sep l EmptyString.

(** Array.prototype.map with the two-argument callback [(x, idx) => ...]. *)
Fixpoint map_from {A B : Type} (f : A -> Z -> B) (idx : Z) (l : list A) : list B :=
  match l with
  | [] => []
  | x :: l' => f x idx :: map_from f (idx + 1) l'
  end.

Definition map_idx {A B : Type} (f : A -> Z -> B) (l : list A) : list B :=
  map_from f 0 l.

(** A JavaScript number from an array index. *)
Definition num (idx : Z) : float := of_uint63 (Uint63.of_Z idx).

End Js.

(** ** Element trees *)

Module Jsx.
Import Js.

(** An attribute of an element: a string literal, an expression of
    primitive value, or an object literal of numbers ([{{ opacity: 0 }}]). *)
Inductive prop : Type :=
| PStr (s : string)
| PVal (v : value)
| PObj (fields : list (string * float)).

(** A child position of an element: literal text, an interpolated
    primitive, an interpolated array of children, or an element. *)
Inductive jsx : Type :=
| Lit (s : string)
| Val (v : value)
| Arr (items : list jsx)
| Elem (tag : string) (props : list (string * prop)) (children : list jsx).

Definition cls (c : string) : list (string * prop) := [("className", PStr c)].

(** An icon component used without children. *)
Definition icon (name c : string) : jsx := Elem name (cls c) [].

(** What React prints for an interpolated primitive: nothing for
    [undefined], the string itself, a number in decimal. *)
Definition text_of (v : value) : string :=
  match v with
  | VUndef => EmptyString
  | _ => to_string v
  end.

(** The text a reader sees in a subtree, in document order. *)
Fixpoint textContent (t : jsx) : string :=
  match t with
  | Lit s => s
  | Val v => text_of v
  | Arr items => String.concat EmptyString (map textContent items)
  | Elem _ _ children => String.concat EmptyString (map textContent children)
  end.

(** All elements of a subtree, the root included, in document order. *)
Fixpoint elements (t : jsx) : list jsx :=
  match t with
  | Lit _ | Val _ => []
  | Arr items => flat_map elements items
  | Elem tag props children => Elem tag props children :: flat_map elements children
  end.

Definition tag_of (t : jsx) : string :=
  match t with
  | Elem tag _ _ => tag
  | _ => EmptyString
  end.

Definition children_of (t : jsx) : list jsx :=
  match t with
  | Elem _ _ children => children
  | Arr items => items
  | _ => []
  end.

Fixpoint lookup_prop (k : string) (props : list (string * prop)) : option prop :=
  match props with
  | [] => None
  | (k', p) :: props' => if String.eqb k' k then Some p else lookup_prop k props'
  end.

Definition className_of (t : jsx) : string :=
  match t with
  | Elem _ props _ =>
      match lookup_prop "className" props with
      | Some (PStr c) => c
      | _ => EmptyString
      end
  | _ => EmptyString
  end.

(** The space-separated tokens of a class attribute. *)
Fixpoint tokens_from (cur : string) (s : string) : list string :=
  match s with
  | EmptyString => [cur]
  | String c s' =>
      if Ascii.eqb c " "%char then cur :: tokens_from EmptyString s'
      else tokens_from (cur ++ String c EmptyString) s'
  end.

Definition class_list (t : jsx) : list string :=
  filter (fun tok => negb (String.eqb tok EmptyString))
         (tokens_from EmptyString (className_of t)).

Definition has_class (c : string) (t : jsx) : bool :=
  existsb (String.eqb c) (class_list t).

Definition by_tag (tag : string) (t : jsx) : list jsx :=
  filter (fun e => String.eqb (tag_of e) tag) (elements t).

Definition by_class (c : string) (t : jsx) : list jsx :=
  filter (has_class c) (elements t).

(** No interpolated child of the subtree is [undefined]. *)
Fixpoint defined_everywhere (t : jsx) : bool :=
  match t with
  | Lit _ => true
  | Val VUndef => false
  | Val _ => true
  | Arr items => forallb defined_everywhere items
  | Elem _ _ children => forallb defined_everywhere children
  end.

End Jsx.

(** ** The page module *)

Module Paper.
Import Js Jsx.

(** *** Static record sets *)

Definition REFERENCES : list obj :=
  [ [ ("id", VNum 1); ("authors", VStr "Smith, J., & Johnson, K.");
      ("title", VStr "Scalable API Architecture Patterns");
      ("journal", VStr "Journal of Systems Architecture");
      ("year", VStr "2024"); ("volume", VStr "142"); ("pages", VStr "102889") ];
    [ ("id", VNum 2); ("authors", VStr "Chen, L., et al.");
      ("title", VStr "Async Performance Benchmarks in Python");
      ("journal", VStr "Proceedings of the 2024 Python Conference");
      ("year", VStr "2024"); ("pages", VStr "234-251") ];
    [ ("id", VNum 3); ("authors", VStr "Williams, R., & Davis, M.");
      ("title", VStr "Microservices Communication Patterns");
      ("journal", VStr "IEEE Software");
      ("year", VStr "2023"); ("volume", VStr "40"); ("issue", VStr "3");
      ("pages", VStr "45-58") ] ].

Definition KEY_FINDINGS : list obj :=
  [ [ ("metric", VStr "Response Latency"); ("value", VStr "42%");
      ("description", VStr "Reduction in median response time compared to traditional WSGI implementations");
      ("source", VStr "[2]") ];
    [ ("metric", VStr "Throughput"); ("value", VStr "3.2x");
      ("description", VStr "Higher request throughput under concurrent load conditions");
      ("source", VStr "[2]") ];
    [ ("metric", VStr "Memory Usage"); ("value", VStr "28%");
      ("description", VStr "Lower memory footprint during sustained operation");
      ("source", VStr "[1]") ] ].

Definition AUTHORS : list obj :=
  [ [ ("name", VStr "Dr. Sarah Mitchell");
      ("affiliation", VStr "Department of Computer Science, Stanford University") ];
    [ ("name", VStr "Prof. James Chen");
      ("affiliation", VStr "Software Systems Laboratory, MIT") ];
    [ ("name", VStr "Dr. Emily Watson");
      ("affiliation", VStr "Data Science Institute, Oxford University") ] ].

(** The three arrays are [const] bindings to mutable arrays: what a render
    sees is their content at that time. [heap] is that content, and
    [module_load] is the heap once the module has been evaluated. *)
Record heap : Type := Heap {
  references : list obj;
  key_findings : list obj;
  authors : list obj
}.

Definition module_load : heap :=
  {| references := REFERENCES; key_findings := KEY_FINDINGS; authors := AUTHORS |}.

(** *** Pieces of the tree returned by [App] *)

Definition dquote : string := String (ascii_of_nat 34) EmptyString.

Definition nav_link (label : string) : jsx :=
  Elem "a" [("href", PStr "#"); ("className", PStr "text-slate-600 hover:text-slate-900")]
       [Lit label].

Definition citation (label : string) : jsx :=
  Elem "span" (cls "citation") [Lit label].

Definition header : jsx :=
  Elem "header" (cls "bg-white border-b border-slate-200 sticky top-0 z-50")
    [ Elem "div" (cls "max-w-5xl mx-auto px-8 py-4 flex items-center justify-between")
        [ Elem "div" (cls "flex items-center gap-4")
            [ Elem "div" (cls "p-2 bg-slate-100 rounded")
                [ icon "BookOpen" "w-5 h-5 text-slate-700" ];
              Elem "span" (cls "font-semibold text-slate-900") [Lit "ScholarStack"] ];
          Elem "div" (cls "flex items-center gap-6 text-sm")
            [ nav_link "Abstract";
              nav_link "Introduction";
              nav_link "Methods";
              nav_link "Results";
              nav_link "Discussion";
              Elem "button"
                (cls "flex items-center gap-2 px-3 py-1.5 bg-slate-900 text-white rounded hover:bg-slate-800 transition-colors")
                [ icon "Download" "w-4 h-4"; Lit " PDF" ] ] ] ].

(** The author block: [AUTHORS.map(a => a.name).join(", ")] and
    [AUTHORS.map(a => a.affiliation).join("; ")]. *)
Definition author_block (h : heap) : jsx :=
  Elem "div" (cls "author-block")
    [ Elem "p" (cls "author-name")
        [ Val (VStr (join (map (fun a => get a "name") (authors h)) ", ")) ];
      Elem "p" (cls "author-affiliation")
        [ Val (VStr (join (map (fun a => get a "affiliation") (authors h)) "; ")) ] ].

Definition meta_item (ic label : string) : jsx :=
  Elem "span" (cls "flex items-center gap-1") [ icon ic "w-4 h-4"; Lit label ].

Definition title_block (h : heap) : jsx :=
  Elem "div" (cls "text-center mb-12")
    [ Elem "span"
        (cls "inline-block px-3 py-1 text-xs font-semibold text-blue-700 bg-blue-50 rounded-full mb-6")
        [ Lit "Peer-Reviewed Research Article" ];
      Elem "h1" (cls "text-3xl md:text-4xl font-bold text-slate-900 mb-6 leading-tight")
        [ Lit "Optimizing Python Web APIs: A Comparative Analysis of Synchronous and Asynchronous Architectures" ];
      author_block h;
      Elem "div" (cls "flex items-center justify-center gap-6 text-sm text-slate-500 mt-6")
        [ meta_item "Calendar" " Published: January 15, 2026";
          meta_item "FileText" " DOI: 10.1234/ss.2026.001";
          meta_item "Globe" " Views: 12,847" ] ].

Definition abstract : jsx :=
  Elem "section" (cls "paper-card mb-8")
    [ Elem "h2" (cls "abstract-heading") [Lit "Abstract"];
      Elem "p" (cls "abstract-text")
        [ Lit "This study presents a comprehensive evaluation of FlaskStack, a novel architectural pattern for building high-performance Python web APIs. We conduct empirical benchmarks comparing synchronous WSGI implementations against asynchronous ASGI-based solutions across multiple metrics including response latency, throughput scalability, and resource utilization. Our findings indicate that FlaskStack achieves a 42% reduction in median response latency and 3.2x higher throughput under concurrent load conditions";
          citation "[1]";
          Lit ". These results have significant implications for organizations seeking to optimize their Python-based web infrastructure for high-concurrency scenarios." ];
      Elem "div" (cls "footnote")
        [ Elem "strong" [] [Lit "Keywords:"];
          Lit " Python, Web APIs, Asynchronous Programming, Performance Optimization, Flask, ASGI, Microservices" ] ].

Definition introduction : jsx :=
  Elem "section" (cls "mb-12")
    [ Elem "h2" (cls "section-heading") [Lit "1. Introduction"];
      Elem "p" (cls "text-slate-700 leading-relaxed mb-6")
        [ Lit "The demand for high-performance web APIs has grown substantially with the proliferation of distributed systems and microservices architectures";
          citation "[3]";
          Lit ". Python, despite its widespread adoption for web development, has historically faced criticism for its synchronous execution model in traditional WSGI deployments." ];
      Elem "p" (cls "text-slate-700 leading-relaxed mb-6")
        [ Lit "FlaskStack addresses these limitations by introducing a hybrid architecture that leverages the strengths of both synchronous and asynchronous programming paradigms. This approach enables developers to maintain the simplicity and familiarity of Flask while achieving performance characteristics comparable to purpose-built async frameworks." ];
      Elem "div" (cls "paper-card my-8 bg-slate-50")
        [ Elem "div" (cls "flex items-start gap-3")
            [ icon "Quote" "w-6 h-6 text-slate-400 flex-shrink-0 mt-1";
              Elem "blockquote" (cls "text-slate-700 italic")
                [ Lit (dquote ++ "The key innovation of FlaskStack lies in its ability to seamlessly transition between synchronous and asynchronous execution contexts based on workload characteristics, without requiring significant changes to application code." ++ dquote) ] ] ] ].

Definition methodology_step (number title detail : string) : jsx :=
  Elem "div" (cls "methodology-step flex-col")
    [ Elem "div" (cls "methodology-number mb-3") [Lit number];
      Elem "h4" (cls "font-semibold text-slate-900 mb-2") [Lit title];
      Elem "p" (cls "text-sm text-slate-600") [Lit detail] ].

Definition methods : jsx :=
  Elem "section" (cls "mb-12")
    [ Elem "h2" (cls "section-heading") [Lit "2. Methodology"];
      Elem "p" (cls "text-slate-700 leading-relaxed mb-8")
        [ Lit "Our experimental methodology employed a controlled benchmarking environment with standardized hardware and network conditions. We utilized wrk2 as our primary load generation tool, configured to produce consistent request rates across all test scenarios." ];
      Elem "div" (cls "grid md:grid-cols-3 gap-6 mb-8")
        [ methodology_step "1" "Environment Setup" "Python 3.12, 16GB RAM, 8-core CPU";
          methodology_step "2" "Load Generation" "wrk2 with consistent request rates";
          methodology_step "3" "Metrics Collection" "Latency, throughput, memory profiles" ] ].

(** The callback of [KEY_FINDINGS.map((finding, idx) => ...)]. *)
Definition finding_card (finding : obj) (idx : Z) : jsx :=
  Elem "motion.div"
    [ ("key", PVal (VNum idx));
      ("initial", PObj [("opacity", 0%float); ("y", 20%float)]);
      ("animate", PObj [("opacity", 1%float); ("y", 0%float)]);
      ("transition", PObj [("delay", (num idx * 0.1)%float)]);
      ("className", PStr "paper-card text-center") ]
    [ Elem "div" (cls "text-4xl font-bold text-slate-900 mb-2") [Val (get finding "value")];
      Elem "div" (cls "text-sm font-semibold text-slate-700 mb-3") [Val (get finding "metric")];
      Elem "p" (cls "text-xs text-slate-500 leading-relaxed") [Val (get finding "description")];
      Elem "span" (cls "citation mt-2 inline-block") [Val (get finding "source")] ].

Definition finding_grid (h : heap) : jsx :=
  Elem "div" (cls "grid md:grid-cols-3 gap-6 mb-8")
    [ Arr (map_idx finding_card (key_findings h)) ].

Definition table_row (metric wsgi async improvement : string) : jsx :=
  Elem "tr" []
    [ Elem "td" [] [Lit metric];
      Elem "td" [] [Lit wsgi];
      Elem "td" [] [Lit async];
      Elem "td" (cls "text-green-600 font-medium") [Lit improvement] ].

Definition results_table : jsx :=
  Elem "table" (cls "data-table")
    [ Elem "thead" []
        [ Elem "tr" []
            [ Elem "th" [] [Lit "Metric"];
              Elem "th" [] [Lit "Traditional WSGI"];
              Elem "th" [] [Lit "FlaskStack (Async)"];
              Elem "th" [] [Lit "Improvement"] ] ];
      Elem "tbody" []
        [ table_row "Median Latency (p50)" "45ms" "26ms" "42%";
          table_row "99th Percentile (p99)" "128ms" "67ms" "48%";
          table_row "Requests/Second" "2,450" "7,840" "3.2x";
          table_row "Memory (steady state)" "256MB" "184MB" "28%" ] ].

Definition results (h : heap) : jsx :=
  Elem "section" (cls "mb-12")
    [ Elem "h2" (cls "section-heading") [Lit "3. Results"];
      Elem "p" (cls "text-slate-700 leading-relaxed mb-8")
        [ Lit "The benchmarking results demonstrate significant performance improvements across all measured metrics. Below we present the key findings from our empirical evaluation." ];
      finding_grid h;
      Elem "div" (cls "paper-card")
        [ Elem "h3" (cls "font-semibold text-slate-900 mb-4")
            [ Lit "Table 1: Performance Comparison Under Concurrent Load" ];
          results_table ] ].

Definition discussion : jsx :=
  Elem "section" (cls "mb-12")
    [ Elem "h2" (cls "section-heading") [Lit "4. Discussion"];
      Elem "p" (cls "text-slate-700 leading-relaxed mb-6")
        [ Lit "The results presented in Section 3 have several important implications for practitioners and researchers in the field of web API development. First, the substantial latency improvements demonstrated by FlaskStack suggest that async architectures can be practically adopted without sacrificing the developer experience that Flask provides";
          citation "[2]";
          Lit "." ];
      Elem "p" (cls "text-slate-700 leading-relaxed mb-6")
        [ Lit "Second, the memory efficiency gains observed under sustained load conditions indicate that FlaskStack is particularly well-suited for containerized deployments where resource constraints are a primary concern. This finding aligns with emerging industry trends toward lean, cloud-native application architectures." ] ].

(** [c ? `${pre}${c}${post}` : ''] for an optional property [c]. *)
Definition optional_part (pre : string) (c : value) (post : string) : value :=
  if truthy c then VStr (pre ++ to_string c ++ post) else VStr EmptyString.

(** The callback of [REFERENCES.map((ref) => ...)]. *)
Definition reference_item (ref : obj) : jsx :=
  Elem "div" [ ("key", PVal (get ref "id")); ("className", PStr "reference-item") ]
    [ Elem "span" (cls "citation-number mr-2") [ Lit "["; Val (get ref "id"); Lit "]" ];
      Elem "span" (cls "text-slate-700")
        [ Val (get ref "authors"); Lit ". ("; Val (get ref "year"); Lit "). ";
          Elem "em" [] [ Val (get ref "title") ]; Lit ". ";
          Val (get ref "journal");
          Val (optional_part ", " (get ref "volume") EmptyString);
          Val (optional_part "(" (get ref "issue") ")");
          Val (optional_part ", " (get ref "pages") EmptyString);
          Lit "." ] ].

Definition references_section (h : heap) : jsx :=
  Elem "section" (cls "mb-12")
    [ Elem "h2" (cls "section-heading") [Lit "References"];
      Elem "div" (cls "paper-card") [ Arr (map reference_item (references h)) ] ].

Definition footer_item (ic label : string) : jsx :=
  Elem "span" (cls "flex items-center gap-1 text-sm text-slate-500")
    [ icon ic "w-4 h-4"; Lit label ].

Definition footer : jsx :=
  Elem "footer" (cls "text-center pt-8 border-t border-slate-200")
    [ Elem "div" (cls "flex items-center justify-center gap-6 mb-4")
        [ footer_item "Award" " This paper received the Best Paper Award at PyCon 2026";
          footer_item "Users" " 847 citations" ];
      Elem "p" (cls "text-xs text-slate-400")
        [ Lit "© 2026 ScholarStack Research Foundation. All rights reserved." ] ].

(** *** The component *)

(** [App] takes no argument. It reads the three arrays and writes nothing:
    the heap it leaves is the heap it found. *)
Definition App (h : heap) : jsx * heap :=
  (Elem "div" (cls "min-h-screen bg-[#fdfbf7]")
     [ header;
       Elem "main" (cls "max-w-5xl mx-auto px-8 py-12")
         [ Elem "motion.article"
             [ ("initial", PObj [("opacity", 0%float); ("y", 20%float)]);
               ("animate", PObj [("opacity", 1%float); ("y", 0%float)]);
               ("transition", PObj [("duration", 0.6%float)]) ]
             [ title_block h;
               abstract;
               introduction;
               methods;
               results h;
               discussion;
               references_section h;
               footer ] ] ],
   h).

(** The page as first rendered. *)
Definition page : jsx := fst (App module_load).

End Paper.

(** ** The Tailwind configuration *)

Module Tailwind.

Record theme_extend : Type := {
  colors : list (string * string);
  fontFamily : list (string * list string);
  boxShadow : list (string * string)
}.

Record theme_t : Type := { extend : theme_extend }.

Record config : Type := {
  content : list string;
  theme : theme_t;
  plugins : list string
}.

(** The default export of [tailwind.config.js]. *)
Definition default_export : config :=
  {| content := [ "./index.html"; "./src/**/*.{js,ts,jsx,tsx}" ];
     theme :=
       {| extend :=
            {| colors := [ ("flask", "#0891b2"); ("dark", "#020617") ];
               fontFamily := [ ("mono", ["JetBrains Mono"; "Fira Code"; "monospace"]) ];
               boxShadow :=
                 [ ("neon", "0 0 15px rgba(0, 180, 216, 0.2)");
                   ("neon-strong", "0 0 20px rgba(0, 180, 216, 0.3)") ] |} |};
     plugins := [] |}.

End Tailwind.

(** ** Reading the rendered page *)

Module View.
Import Js Jsx Paper.

Definition text_of_all (l : list jsx) : string :=
  String.concat EmptyString (map textContent l).

(** The body rows of every table of the document, each as the texts of
    its cells. *)
Definition table_body_rows (doc : jsx) : list (list string) :=
  flat_map (fun body => map (fun tr => map textContent (by_tag "td" tr)) (by_tag "tr" body))
           (by_tag "tbody" doc).

(** The three cells after the metric label of a row. *)
Definition value_cells (row : list string) : list string := tl row.

(** The value cells with the two request rates written without a
    thousands separator. *)
Definition unseparated_value_cells : list (list string) :=
  [ ["45ms"; "26ms"; "42%"];
    ["128ms"; "67ms"; "48%"];
    ["2450"; "7840"; "3.2x"];
    ["256MB"; "184MB"; "28%"] ].

(** The entries of the references list and the number each one shows. *)
Definition reference_items (doc : jsx) : list jsx := by_class "reference-item" doc.

Definition displayed_number (item : jsx) : string :=
  text_of_all (by_class "citation-number" item).

Definition bracketed (v : value) : string := "[" ++ text_of v ++ "]".

(** How many entries show the number [s]. *)
Definition count_showing (s : string) (items : list jsx) : nat :=
  List.length (filter (fun item => String.eqb (displayed_number item) s) items).

(** The citation text of an entry is the second child of the entry; the
    three optional parts are its children 7, 8 and 9. *)
Definition citation_text (item : jsx) : jsx := nth 1 (children_of item) (Lit EmptyString).

Definition optional_parts (item : jsx) : list jsx :=
  firstn 3 (skipn 7 (children_of (citation_text item))).

(** An optional part decided by the presence of the property alone. *)
Definition when_present (pre : string) (v : value) (post : string) : string :=
  match v with
  | VUndef => EmptyString
  | _ => pre ++ to_string v ++ post
  end.

(** The cards of the finding grid, and the value and metric each shows. *)
Definition finding_cards (doc : jsx) : list jsx := by_tag "motion.div" doc.

Definition card_value (card : jsx) : jsx := nth 0 (children_of card) (Lit EmptyString).
Definition card_metric (card : jsx) : jsx := nth 1 (children_of card) (Lit EmptyString).

(** The two lines of the author block. *)
Definition author_names (doc : jsx) : string := text_of_all (by_class "author-name" doc).
Definition author_affiliations (doc : jsx) : string :=
  text_of_all (by_class "author-affiliation" doc).

(** The properties the callbacks of [App] read from an entry of each array:
    [ref.id] ... [ref.pages] in the references list, [finding.value] ...
    [finding.source] in the finding grid, [a.name] and [a.affiliation] in
    the author block. *)
Definition reference_reads : list string :=
  ["id"; "authors"; "year"; "title"; "journal"; "volume"; "issue"; "pages"].
Definition finding_reads : list string := ["value"; "metric"; "description"; "source"].
Definition author_reads : list string := ["name"; "affiliation"].

Definition present (o : obj) (k : string) : bool :=
  match get o k with
  | VUndef => false
  | _ => true
  end.

Definition all_present (reads : list string) (l : list obj) : bool :=
  forallb (fun o => forallb (present o) reads) l.

(** Every property a render reads is present in the heap. *)
Definition every_read_present (h : heap) : bool :=
  all_present reference_reads (references h)
  && all_present finding_reads (key_findings h)
  && all_present author_reads (authors h).

(** The properties of a reference that the citation text does not guard
    with a conditional. *)
Definition reference_required : list string :=
  ["id"; "authors"; "year"; "title"; "journal"].

End View.

(** ** Further readings of the rendered page *)

Module Probe.
Import Js Jsx Paper.

(** The attribute [k] of an element, if the element carries one. *)
Definition attr (k : string) (t : jsx) : option prop :=
  match t with
  | Elem _ props _ => lookup_prop k props
  | _ => None
  end.

Definition has_attr (k : string) (t : jsx) : bool :=
  match attr k t with
  | Some _ => true
  | None => false
  end.

(** [p] occurs somewhere in [s]. *)
Fixpoint occurs_in (p s : string) : bool :=
  String.prefix p s
  || match s with
     | EmptyString => false
     | String _ s' => occurs_in p s'
     end.

(** The names the configuration adds to the theme: its colours, font
    stacks and shadows. *)
Definition custom_tokens (c : Tailwind.config) : list string :=
  let ext := Tailwind.extend (Tailwind.theme c) in
  map fst (Tailwind.colors ext)
  ++ map fst (Tailwind.fontFamily ext)
  ++ map fst (Tailwind.boxShadow ext).

Definition names_custom_token (t : jsx) : bool :=
  existsb (fun tok => occurs_in tok (className_of t))
          (custom_tokens Tailwind.default_export).

(** The description and the source of a card are its third and fourth
    children. *)
Definition card_description (card : jsx) : jsx := nth 2 (children_of card) (Lit EmptyString).
Definition card_source (card : jsx) : jsx := nth 3 (children_of card) (Lit EmptyString).

(** The citation markers of a document: the texts of its [citation]
    elements. *)
Definition citation_markers (doc : jsx) : list string :=
  map textContent (by_class "citation" doc).

(** The key React gives an element is the [key] attribute as a string;
    an element whose attribute is missing or undefined has no key. *)
Definition key_text (v : value) : option string :=
  match v with
  | VUndef => None
  | _ => Some (to_string v)
  end.

Definition element_key (t : jsx) : option string :=
  match attr "key" t with
  | Some (PVal v) => key_text v
  | Some (PStr k) => Some k
  | Some (PObj _) => Some "[object Object]"
  | None => None
  end.

(** The integers between -(2^53 - 1) and 2^53 - 1, which a JavaScript
    number holds exactly. *)
Definition safe_integer (n : Z) : Prop := Z.abs n <= 9007199254740991.

Definition safe_id (r : obj) : Prop :=
  exists n, get r "id" = VNum n /\ safe_integer n.

(** Two objects agree on the properties [ks]. *)
Definition agree (ks : list string) (o o' : obj) : Prop :=
  Forall (fun k => get o k = get o' k) ks.

End Probe.

(** ** Renders in the store of array objects *)

Module Run.
Import Js Jsx Paper.

(** An array object: its elements. The arrays of the page hold objects,
    primitive values or elements. *)
Inductive array : Type :=
| AObjs (items : list obj)
| AVals (items : list value)
| ANodes (items : list jsx).

(** The store holds the array objects created so far, each at its address. *)
Definition store : Type := list array.
Definition addr : Type := nat.

(** A step of evaluation reads the store, may create array objects in it,
    and may throw. *)
Definition M (A : Type) : Type := store -> option (A * store).

Definition ret {A : Type} (a : A) : M A := fun s => Some (a, s).

Definition bind {A B : Type} (m : M A) (k : A -> M B) : M B :=
  fun s =>
    match m s with
    | None => None
    | Some (a, s1) => k a s1
    end.

#[local] Notation "x <- m ;; k" := (bind m (fun x => k))
  (at level 61, m at next level, right associativity).

(** A new array object goes to the first free address. *)
Definition alloc (a : array) : M addr :=
  fun s => Some (List.length s, (s ++ [a])%list).

(** Reading the elements of an array; a receiver that is not an array of
    the expected kind throws. *)
Definition objects_at (l : addr) : M (list obj) :=
  fun s =>
    match nth_error s l with
    | Some (AObjs items) => Some (items, s)
    | _ => None
    end.

Definition values_at (l : addr) : M (list value) :=
  fun s =>
    match nth_error s l with
    | Some (AVals items) => Some (items, s)
    | _ => None
    end.

Definition nodes_at (l : addr) : M (list jsx) :=
  fun s =>
    match nth_error s l with
    | Some (ANodes items) => Some (items, s)
    | _ => None
    end.

(** [arr.map(a => ...)] to primitive values: the result is a new array, the
    receiver is left as it is. *)
Definition map_values (f : obj -> value) (l : addr) : M addr :=
  items <- objects_at l ;;
  alloc (AVals (map f items)).

(** [arr.map((x, idx) => <element>)]. *)
Definition map_nodes (f : obj -> Z -> jsx) (l : addr) : M addr :=
  items <- objects_at l ;;
  alloc (ANodes (map_idx f items)).

(** [arr.join(sep)]: a string, no new object. *)
Definition join_at (l : addr) (sep : string) : M string :=
  items <- values_at l ;;
  ret (join items sep).

(** The three [const] bindings of the module, in the order the module
    evaluates them, and the store once the module is loaded. *)
Definition REFERENCES_addr : addr := 0%nat.
Definition KEY_FINDINGS_addr : addr := 1%nat.
Definition AUTHORS_addr : addr := 2%nat.

Definition module_store : store :=
  [ AObjs REFERENCES; AObjs KEY_FINDINGS; AObjs AUTHORS ].

(** The content of the three module arrays in a store. *)
Definition heap_of (s : store) : option heap :=
  match s with
  | AObjs r :: AObjs f :: AObjs a :: _ => Some (Heap r f a)
  | _ => None
  end.

(** The tree of [App] around its four interpolated expressions: the two
    joined lines, the array of cards and the array of reference entries. *)
Definition author_block_of (names affiliations : string) : jsx :=
  Elem "div" (cls "author-block")
    [ Elem "p" (cls "author-name") [ Val (VStr names) ];
      Elem "p" (cls "author-affiliation") [ Val (VStr affiliations) ] ].

Definition title_block_of (names affiliations : string) : jsx :=
  Elem "div" (cls "text-center mb-12")
    [ Elem "span"
        (cls "inline-block px-3 py-1 text-xs font-semibold text-blue-700 bg-blue-50 rounded-full mb-6")
        [ Lit "Peer-Reviewed Research Article" ];
      Elem "h1" (cls "text-3xl md:text-4xl font-bold text-slate-900 mb-6 leading-tight")
        [ Lit "Optimizing Python Web APIs: A Comparative Analysis of Synchronous and Asynchronous Architectures" ];
      author_block_of names affiliations;
      Elem "div" (cls "flex items-center justify-center gap-6 text-sm text-slate-500 mt-6")
        [ meta_item "Calendar" " Published: January 15, 2026";
          meta_item "FileText" " DOI: 10.1234/ss.2026.001";
          meta_item "Globe" " Views: 12,847" ] ].

Definition results_of (cards : list jsx) : jsx :=
  Elem "section" (cls "mb-12")
    [ Elem "h2" (cls "section-heading") [Lit "3. Results"];
      Elem "p" (cls "text-slate-700 leading-relaxed mb-8")
        [ Lit "The benchmarking results demonstrate significant performance improvements across all measured metrics. Below we present the key findings from our empirical evaluation." ];
      Elem "div" (cls "grid md:grid-cols-3 gap-6 mb-8") [ Arr cards ];
      Elem "div" (cls "paper-card")
        [ Elem "h3" (cls "font-semibold text-slate-900 mb-4")
            [ Lit "Table 1: Performance Comparison Under Concurrent Load" ];
          results_table ] ].

Definition references_section_of (entries : list jsx) : jsx :=
  Elem "section" (cls "mb-12")
    [ Elem "h2" (cls "section-heading") [Lit "References"];
      Elem "div" (cls "paper-card") [ Arr entries ] ].

Definition page_of (names affiliations : string) (cards entries : list jsx) : jsx :=
  Elem "div" (cls "min-h-screen bg-[#fdfbf7]")
    [ header;
      Elem "main" (cls "max-w-5xl mx-auto px-8 py-12")
        [ Elem "motion.article"
            [ ("initial", PObj [("opacity", 0%float); ("y", 20%float)]);
              ("animate", PObj [("opacity", 1%float); ("y", 0%float)]);
              ("transition", PObj [("duration", 0.6%float)]) ]
            [ title_block_of names affiliations;
              abstract;
              introduction;
              methods;
              results_of cards;
              discussion;
              references_section_of entries;
              footer ] ] ].

(** One call of [App], step by step in source order: the two [map]s and
    [join]s of the author block, the [map] of the finding grid, the [map]
    of the references list. The arrays that the tree embeds are read once
    they are built; nothing writes to them afterwards. *)
Definition App_run : M jsx :=
  names <- map_values (fun a => get a "name") AUTHORS_addr ;;
  names_line <- join_at names ", " ;;
  affiliations <- map_values (fun a => get a "affiliation") AUTHORS_addr ;;
  affiliations_line <- join_at affiliations "; " ;;
  cards <- map_nodes finding_card KEY_FINDINGS_addr ;;
  card_items <- nodes_at cards ;;
  entries <- map_nodes (fun ref _ => reference_item ref) REFERENCES_addr ;;
  entry_items <- nodes_at entries ;;
  ret (page_of names_line affiliations_line card_items entry_items).

(** [n] calls of [App] in a row, each in the store the previous one left. *)
Fixpoint renders_run (n : nat) : M (list jsx) :=
  match n with
  | O => ret []
  | S n' =>
      doc <- App_run ;;
      docs <- renders_run n' ;;
      ret (doc :: docs)
  end.

(** The array objects one call of [App] creates. *)
Definition created_by_render (h : heap) : store :=
  [ AVals (map (fun a => get a "name") (authors h));
    AVals (map (fun a => get a "affiliation") (authors h));
    ANodes (map_idx finding_card (key_findings h));
    ANodes (map reference_item (references h)) ].

End Run.

(** ** Facts about the JavaScript operations *)

Import Js Jsx Paper View.

Section Strings.

Lemma append_assoc (a b c : string) : (a ++ b) ++ c = a ++ (b ++ c).
Proof. induction a as [|x a IH]; simpl; [reflexivity | now rewrite IH]. Qed.

(** Decimal printing of integers is injective: two entries show the same
    number only when their ids are equal. *)
Lemma Z_to_string_inj (a b : Z) : Z_to_string a = Z_to_string b -> a = b.
Proof.
  unfold Z_to_string. intros E.
  apply DecimalZ.to_int_inj.
  assert (Some (Z.to_int a) = Some (Z.to_int b)) as [= ->]; [|reflexivity].
  now rewrite <- !NilEmpty.isi, E.
Qed.

Lemma append_char_inj (c : ascii) (s t : string) :
  s ++ String c EmptyString = t ++ String c EmptyString -> s = t.
Proof.
  revert t. induction s as [|x s IH]; intros [|y t] E; simpl in E.
  - reflexivity.
  - injection E as _ E. destruct t; discriminate.
  - injection E as _ E. destruct s; discriminate.
  - injection E as -> E. f_equal. now apply IH.
Qed.

Lemma bracketed_num_inj (a b : Z) : bracketed (VNum a) = bracketed (VNum b) -> a = b.
Proof.
  unfold bracketed; simpl. intros [= E].
  now apply Z_to_string_inj, (append_char_inj "]"%char).
Qed.

End Strings.

Section Join.

Variable sep : string.

(** Once the first element is behind, the loop appends a separator and the
    text of each remaining element. *)
Lemma join_from_rest (l : list value) (R : string) :
  join_from false sep l R =
  match l with
  | [] => R
  | _ => R ++ sep ++ String.concat sep (map text_of l)
  end.
Proof.
  revert R. induction l as [|v l IH]; intros R; [reflexivity|].
  cbn [join_from]. rewrite IH.
  change (match v with VUndef => EmptyString | _ => to_string v end) with (text_of v).
  destruct l as [|w l]; cbn [map String.concat].
  - now rewrite append_assoc.
  - now rewrite !append_assoc.
Qed.

(** [join] is the concatenation of the texts of the elements, in order,
    with the separator between neighbours. *)
Lemma join_concat (l : list value) :
  join l sep = String.concat sep (map text_of l).
Proof.
  destruct l as [|v l]; [reflexivity|].
  unfold join. cbn [join_from]. rewrite join_from_rest.
  change (match v with VUndef => EmptyString | _ => to_string v end) with (text_of v).
  destruct l; cbn [map String.concat]; reflexivity.
Qed.

End Join.

Section MapIdx.

Context {A B : Type} (f : A -> Z -> B).

Lemma map_from_length (l : list A) (i : Z) : List.length (map_from f i l) = List.length l.
Proof. revert i; induction l as [|x l IH]; intros i; simpl; [reflexivity | now rewrite IH]. Qed.

(** The callback receives each element with its position. *)
Lemma map_from_nth (l : list A) (i : Z) (k : nat) (d : A) (e : B) :
  (k < List.length l)%nat ->
  nth k (map_from f i l) e = f (nth k l d) (i + Z.of_nat k).
Proof.
  revert i k. induction l as [|x l IH]; intros i k Hk; simpl in Hk; [lia|].
  destruct k as [|k]; simpl.
  - now rewrite Z.add_0_r.
  - rewrite IH by lia. f_equal. lia.
Qed.

End MapIdx.

(** ** The object literals *)

Lemma literal_keys_distinct :
  Forall (fun o : obj => NoDup (map fst o)) (REFERENCES ++ KEY_FINDINGS ++ AUTHORS).
Proof.
  repeat (apply Forall_cons || apply Forall_nil);
    repeat (apply NoDup_cons || apply NoDup_nil); cbn; intuition discriminate.
Qed.

(** ** Selecting elements of the page, whatever the arrays hold *)

Section Sift.

Context {A : Type} (p : jsx -> bool).

Lemma sift_map_none (g : A -> jsx) (l : list A) :
  (forall x, filter p (elements (g x)) = []) ->
  filter p (flat_map elements (map g l)) = [].
Proof.
  intros H. induction l as [|x l IH]; cbn [map flat_map]; [reflexivity|].
  now rewrite filter_app, H, IH.
Qed.

Lemma sift_map_root (g : A -> jsx) (l : list A) :
  (forall x, filter p (elements (g x)) = [g x]) ->
  filter p (flat_map elements (map g l)) = map g l.
Proof.
  intros H. induction l as [|x l IH]; cbn [map flat_map]; [reflexivity|].
  now rewrite filter_app, H, IH.
Qed.

Lemma sift_map_from_none (g : A -> Z -> jsx) (l : list A) (i : Z) :
  (forall x j, filter p (elements (g x j)) = []) ->
  filter p (flat_map elements (map_from g i l)) = [].
Proof.
  intros H. revert i.
  induction l as [|x l IH]; intros i; cbn [map_from flat_map]; [reflexivity|].
  now rewrite filter_app, H, IH.
Qed.

Lemma sift_map_from_root (g : A -> Z -> jsx) (l : list A) (i : Z) :
  (forall x j, filter p (elements (g x j)) = [g x j]) ->
  filter p (flat_map elements (map_from g i l)) = map_from g i l.
Proof.
  intros H. revert i.
  induction l as [|x l IH]; intros i; cbn [map_from flat_map]; [reflexivity|].
  now rewrite filter_app, H, IH.
Qed.

End Sift.

(** Lay the elements of the page out as one list, the two mapped arrays
    left as they are. *)
Ltac open_page :=
  unfold App, fst;
  cbn [elements flat_map app header title_block author_block abstract
       introduction methods results discussion references_section footer
       finding_grid results_table nav_link icon meta_item citation
       methodology_step table_row footer_item];
  unfold map_idx.

(** Run a selector over that list. *)
Ltac sift :=
  repeat first
    [ rewrite filter_app
    | rewrite sift_map_none by reflexivity
    | rewrite sift_map_root by reflexivity
    | rewrite sift_map_from_none by reflexivity
    | rewrite sift_map_from_root by reflexivity
    | progress simpl filter ];
  rewrite ?app_nil_r; cbn [app].

Section AnyHeap.

Variable h : heap.

Lemma tbody_any_heap : by_tag "tbody" (fst (App h)) = by_tag "tbody" results_table.
Proof. unfold by_tag. open_page. sift. reflexivity. Qed.

Lemma reference_items_any_heap :
  reference_items (fst (App h)) = map reference_item (references h).
Proof. unfold reference_items, by_class. open_page. sift. reflexivity. Qed.

Lemma finding_cards_any_heap :
  finding_cards (fst (App h)) = map_idx finding_card (key_findings h).
Proof. unfold finding_cards, by_tag. open_page. sift. reflexivity. Qed.

Lemma author_names_any_heap :
  author_names (fst (App h)) = join (map (fun a => get a "name") (authors h)) ", ".
Proof.
  unfold author_names, by_class. open_page. sift.
  reflexivity.
Qed.

Lemma author_affiliations_any_heap :
  author_affiliations (fst (App h)) =
  join (map (fun a => get a "affiliation") (authors h)) "; ".
Proof.
  unfold author_affiliations, by_class. open_page. sift.
  reflexivity.
Qed.

End AnyHeap.

(** The number an entry shows is its id between brackets. *)
Lemma displayed_number_item (r : obj) :
  displayed_number (reference_item r) = bracketed (get r "id").
Proof.
  unfold displayed_number, bracketed, text_of_all, by_class. cbn.
  reflexivity.
Qed.

(** ** Counting the entries that show a given number *)

Section Counting.

Let id_of (r : obj) : value := get r "id".

Lemma count_showing_map (s : string) (l : list obj) :
  count_showing s (map reference_item l) =
  List.length (filter (fun r => String.eqb (bracketed (id_of r)) s) l).
Proof.
  unfold count_showing. induction l as [|r l IH]; [reflexivity|].
  cbn [map filter]. rewrite displayed_number_item. fold (id_of r).
  destruct (String.eqb (bracketed (id_of r)) s); cbn [List.length]; now rewrite IH.
Qed.

(** No entry shows a number that is not among the ids. *)
Lemma count_showing_absent (ids : list Z) (l : list obj) (n : Z) :
  map id_of l = map VNum ids -> ~ In n ids ->
  count_showing (bracketed (VNum n)) (map reference_item l) = 0%nat.
Proof.
  rewrite count_showing_map. revert ids.
  induction l as [|r l IH]; intros [|m ids] E Hn; try discriminate; [reflexivity|].
  cbn [map] in E. injection E as Er E. cbn [filter]. rewrite Er.
  destruct (String.eqb_spec (bracketed (VNum m)) (bracketed (VNum n))) as [Eq|_].
  - apply bracketed_num_inj in Eq. subst m. exfalso. apply Hn. now left.
  - apply (IH ids); [assumption|]. intros Hin. apply Hn. now right.
Qed.

(** With integer ids that do not repeat, every entry of the array is shown
    by exactly one entry of the list. *)
Lemma count_showing_once (ids : list Z) (l : list obj) :
  map id_of l = map VNum ids -> NoDup ids ->
  forall r, In r l ->
  count_showing (bracketed (id_of r)) (map reference_item l) = 1%nat.
Proof.
  revert ids.
  induction l as [|r0 l IH]; intros [|m ids] E Hnd r Hr; try discriminate;
    [destruct Hr|].
  cbn [map] in E. injection E as E0 E.
  inversion Hnd as [|? ? Hm Hnd']; subst.
  destruct Hr as [<-|Hr].
  - rewrite E0. pose proof (count_showing_absent ids l m E Hm) as Z0.
    rewrite count_showing_map in *. cbn [filter]. rewrite E0, String.eqb_refl.
    cbn [List.length]. now rewrite Z0.
  - pose proof (IH ids E Hnd' r Hr) as One.
    assert (exists k, id_of r = VNum k /\ In k ids) as (k & Ek & Hk).
    { apply (in_map id_of) in Hr. rewrite E in Hr.
      apply in_map_iff in Hr as (k & Ek & Hk). now exists k. }
    rewrite count_showing_map in *. cbn [filter]. rewrite E0, Ek in *.
    destruct (String.eqb_spec (bracketed (VNum m)) (bracketed (VNum k))) as [Eq|_].
    + apply bracketed_num_inj in Eq. now subst.
    + exact One.
Qed.

End Counting.

(** ** The results table *)

(** C1, as amended. Whatever the arrays hold, the results table has exactly
    four body rows. Each row is a metric label followed by three value
    cells, and the value cells are, in order, (45ms, 26ms, 42%),
    (128ms, 67ms, 48%), (2,450, 7,840, 3.2x) and (256MB, 184MB, 28%): the
    two request rates are written with a thousands separator. *)
Theorem C1_results_table_rows (h : heap) :
  table_body_rows (fst (App h)) =
  [ ["Median Latency (p50)"; "45ms"; "26ms"; "42%"];
    ["99th Percentile (p99)"; "128ms"; "67ms"; "48%"];
    ["Requests/Second"; "2,450"; "7,840"; "3.2x"];
    ["Memory (steady state)"; "256MB"; "184MB"; "28%"] ]
  /\ List.length (table_body_rows (fst (App h))) = 4%nat
  /\ map value_cells (table_body_rows (fst (App h))) =
     [ ["45ms"; "26ms"; "42%"];
       ["128ms"; "67ms"; "48%"];
       ["2,450"; "7,840"; "3.2x"];
       ["256MB"; "184MB"; "28%"] ].
Proof.
  unfold table_body_rows. rewrite tbody_any_heap. repeat split; reflexivity.
Qed.

(** C1, as first stated, fails on the third row: the page does not show
    2450 and 7840. *)
Lemma C1_value_cells_not_unseparated :
  map value_cells (table_body_rows page) <> unseparated_value_cells
  /\ nth 2 (map value_cells (table_body_rows page)) [] = ["2,450"; "7,840"; "3.2x"].
Proof.
  split; [|reflexivity]. vm_compute. discriminate.
Qed.

(** ** The references list *)

(** C2. The list shows one entry per element of the array, in the order of
    the array, each with its id between brackets; on the module's data
    every reference is shown by exactly one entry, and the numbers run
    [1], [2], [3] in ascending order of id. *)
Theorem C2_reference_numbers :
  (forall h, map displayed_number (reference_items (fst (App h))) =
             map (fun r => bracketed (get r "id")) (references h))
  /\ (forall r, In r REFERENCES ->
        count_showing (bracketed (get r "id")) (reference_items page) = 1%nat)
  /\ (exists ids,
        map (fun r => get r "id") REFERENCES = map VNum ids
        /\ StronglySorted Z.lt ids
        /\ map displayed_number (reference_items page) =
           map (fun n => bracketed (VNum n)) ids)
  /\ map displayed_number (reference_items page) = ["[1]"; "[2]"; "[3]"].
Proof.
  assert (forall h, map displayed_number (reference_items (fst (App h))) =
                    map (fun r => bracketed (get r "id")) (references h)) as Hmap.
  { intros h. rewrite reference_items_any_heap, map_map.
    apply map_ext. intros r. apply displayed_number_item. }
  split; [exact Hmap|]. split; [|split].
  - intros r Hr. unfold page. rewrite reference_items_any_heap.
    apply (count_showing_once [1; 2; 3]); [reflexivity| |exact Hr].
    repeat constructor; cbn; intuition lia.
  - exists [1; 2; 3]. split; [reflexivity|]. split.
    + repeat constructor; lia.
    + unfold page. now rewrite Hmap.
  - unfold page. now rewrite Hmap.
Qed.

(** ** The finding grid *)

(** The card at position [k] is built from the entry at position [k]. *)
Lemma finding_card_at (h : heap) (k : nat) (d : obj) :
  (k < List.length (key_findings h))%nat ->
  nth k (finding_cards (fst (App h))) (Lit EmptyString) =
  finding_card (nth k (key_findings h) d) (Z.of_nat k).
Proof.
  intros Hk. rewrite finding_cards_any_heap. unfold map_idx.
  now rewrite (map_from_nth finding_card _ 0 k d).
Qed.

(** A card prints a string field as it is stored. *)
Lemma finding_card_verbatim (f : obj) (i : Z) (v m : string) :
  get f "value" = VStr v -> get f "metric" = VStr m ->
  textContent (card_value (finding_card f i)) = v
  /\ textContent (card_metric (finding_card f i)) = m.
Proof.
  intros Ev Em. cbn. rewrite Ev, Em. split; reflexivity.
Qed.

(** C3. The grid holds one card per entry of the array, in the order of the
    array; the value and the metric of a card are interpolated as they are
    read from the entry; on the module's data that is exactly three cards,
    showing 42% / Response Latency, 3.2x / Throughput and 28% / Memory
    Usage. *)
Theorem C3_finding_cards :
  (forall h, finding_cards (fst (App h)) = map_idx finding_card (key_findings h))
  /\ (forall f i,
        children_of (card_value (finding_card f i)) = [Val (get f "value")]
        /\ children_of (card_metric (finding_card f i)) = [Val (get f "metric")])
  /\ List.length (finding_cards page) = 3%nat
  /\ map (fun c => (textContent (card_value c), textContent (card_metric c)))
         (finding_cards page) =
     map (fun f => (to_string (get f "value"), to_string (get f "metric"))) KEY_FINDINGS
  /\ map (fun c => (textContent (card_value c), textContent (card_metric c)))
         (finding_cards page) =
     [ ("42%", "Response Latency"); ("3.2x", "Throughput"); ("28%", "Memory Usage") ].
Proof.
  split; [exact finding_cards_any_heap|].
  split; [intros f i; split; reflexivity|].
  unfold page. rewrite finding_cards_any_heap.
  repeat split; reflexivity.
Qed.

(** ** The author block *)

(** C4. The first line of the author block is the names of the authors, in
    the order of the array, with ", " between neighbours; the second line
    is their affiliations, in the same order, with "; " between
    neighbours. *)
Theorem C4_author_block :
  (forall h,
     author_names (fst (App h)) =
       String.concat ", " (map (fun a => text_of (get a "name")) (authors h))
     /\ author_affiliations (fst (App h)) =
       String.concat "; " (map (fun a => text_of (get a "affiliation")) (authors h)))
  /\ author_names page =
       String.concat ", " (map (fun a => to_string (get a "name")) AUTHORS)
  /\ author_affiliations page =
       String.concat "; " (map (fun a => to_string (get a "affiliation")) AUTHORS)
  /\ author_names page = "Dr. Sarah Mitchell, Prof. James Chen, Dr. Emily Watson"
  /\ author_affiliations page =
       "Department of Computer Science, Stanford University; Software Systems Laboratory, MIT; Data Science Institute, Oxford University".
Proof.
  assert (forall h,
     author_names (fst (App h)) =
       String.concat ", " (map (fun a => text_of (get a "name")) (authors h))
     /\ author_affiliations (fst (App h)) =
       String.concat "; " (map (fun a => text_of (get a "affiliation")) (authors h)))
    as Hany.
  { intros h. rewrite author_names_any_heap, author_affiliations_any_heap.
    now rewrite !join_concat, !map_map. }
  split; [exact Hany|].
  destruct (Hany module_load) as [Hn Ha]. fold page in Hn, Ha.
  rewrite Hn, Ha. repeat split; reflexivity.
Qed.

Import Probe Run.

(** ** One render in the store *)

Section Steps.

Variable s : store.

Lemma nth_error_new (a : array) :
  nth_error (s ++ [a])%list (List.length s) = Some a.
Proof. induction s as [|x s' IH]; [reflexivity | exact IH]. Qed.

(** Creating array objects leaves the ones that exist where they are. *)
Lemma nth_error_old (extra : store) (l : addr) (a : array) :
  nth_error s l = Some a -> nth_error (s ++ extra)%list l = Some a.
Proof.
  intros E. rewrite nth_error_app1; [exact E|].
  apply nth_error_Some. now rewrite E.
Qed.

Lemma map_values_run (f : obj -> value) (l : addr) (items : list obj) :
  nth_error s l = Some (AObjs items) ->
  map_values f l s = Some (List.length s, (s ++ [AVals (map f items)])%list).
Proof. intros E. unfold map_values, bind, objects_at, alloc. now rewrite E. Qed.

Lemma map_nodes_run (f : obj -> Z -> jsx) (l : addr) (items : list obj) :
  nth_error s l = Some (AObjs items) ->
  map_nodes f l s = Some (List.length s, (s ++ [ANodes (map_idx f items)])%list).
Proof. intros E. unfold map_nodes, bind, objects_at, alloc. now rewrite E. Qed.

Lemma join_at_new (items : list value) (sep : string) :
  join_at (List.length s) sep (s ++ [AVals items])%list =
  Some (join items sep, (s ++ [AVals items])%list).
Proof. unfold join_at, bind, values_at, ret. now rewrite nth_error_new. Qed.

Lemma nodes_at_new (items : list jsx) :
  nodes_at (List.length s) (s ++ [ANodes items])%list =
  Some (items, (s ++ [ANodes items])%list).
Proof. unfold nodes_at. now rewrite nth_error_new. Qed.

Lemma module_arrays (h : heap) :
  heap_of s = Some h ->
  nth_error s REFERENCES_addr = Some (AObjs (references h))
  /\ nth_error s KEY_FINDINGS_addr = Some (AObjs (key_findings h))
  /\ nth_error s AUTHORS_addr = Some (AObjs (authors h)).
Proof.
  destruct s as [|[r| |] [|[f| |] [|[a| |] s']]]; try discriminate.
  intros [= <-]. repeat split.
Qed.

Lemma heap_of_grows (extra : store) (h : heap) :
  heap_of s = Some h -> heap_of (s ++ extra)%list = Some h.
Proof.
  destruct s as [|[r| |] [|[f| |] [|[a| |] s']]]; try discriminate.
  intros E. exact E.
Qed.

End Steps.

Lemma map_from_const {A B : Type} (g : A -> B) (l : list A) (i : Z) :
  map_from (fun x _ => g x) i l = map g l.
Proof.
  revert i. induction l as [|x l IH]; intros i; cbn [map_from map]; [reflexivity|].
  now rewrite IH.
Qed.

(** The tree built around the four interpolated expressions is the tree
    of [App] on the content of the module arrays. *)
Lemma page_of_App (h : heap) :
  page_of (join (map (fun a => get a "name") (authors h)) ", ")
          (join (map (fun a => get a "affiliation") (authors h)) "; ")
          (map_idx finding_card (key_findings h))
          (map reference_item (references h))
  = fst (App h).
Proof. reflexivity. Qed.

(** A call of [App] in a store that holds the three module arrays does not
    throw. It returns the tree of [App] on their content and leaves every
    array object of the store as it was, with four new ones after them. *)
Lemma App_run_bound (s : store) (h : heap) :
  heap_of s = Some h ->
  App_run s = Some (fst (App h), (s ++ created_by_render h)%list).
Proof.
  intros E. destruct (module_arrays s h E) as (Hr & Hf & Ha).
  unfold App_run.
  unfold bind at 1. rewrite (map_values_run s _ _ _ Ha).
  unfold bind at 1. rewrite join_at_new.
  unfold bind at 1.
  rewrite (map_values_run _ _ _ _ (nth_error_old s _ _ _ Ha)).
  unfold bind at 1. rewrite join_at_new.
  unfold bind at 1.
  rewrite (map_nodes_run _ _ _ _
             (nth_error_old _ _ _ _ (nth_error_old s _ _ _ Hf))).
  unfold bind at 1. rewrite nodes_at_new.
  unfold bind at 1.
  rewrite (map_nodes_run _ _ _ _
             (nth_error_old _ _ _ _ (nth_error_old _ _ _ _ (nth_error_old s _ _ _ Hr)))).
  unfold bind at 1. rewrite nodes_at_new.
  unfold ret, created_by_render. rewrite <- !app_assoc. cbn [app].
  rewrite <- page_of_App. unfold map_idx. now rewrite !map_from_const.
Qed.

(** Without the module arrays the first [map] throws. *)
Lemma App_run_throws_unbound : App_run [] = None.
Proof. reflexivity. Qed.

(** ** Repeated renders *)

(** Renders in a row each return the tree of [App] on the module arrays,
    and the store they leave is the store they found followed by the
    arrays they created. *)
Lemma renders_run_bound (n : nat) (s : store) (h : heap) :
  heap_of s = Some h ->
  renders_run n s =
  Some (repeat (fst (App h)) n,
        (s ++ List.concat (repeat (created_by_render h) n))%list).
Proof.
  revert s. induction n as [|n IH]; intros s E.
  - cbn. now rewrite app_nil_r.
  - cbn [renders_run]. unfold bind at 1. rewrite (App_run_bound s h E).
    unfold bind at 1.
    rewrite (IH _ (heap_of_grows s _ h E)).
    unfold ret. cbn [repeat List.concat]. now rewrite <- app_assoc.
Qed.

(** C5. Each call of [App] creates new arrays with [map] and writes to none
    that exists: in any store that holds the three module arrays, any
    number of renders in a row succeed, every one of them returns the same
    tree, so any markup printed from it is the same, and the module arrays
    are afterwards what they were. *)
Theorem C5_render_idempotent (markup : jsx -> string) (n : nat) (s : store) (h : heap) :
  heap_of s = Some h ->
  exists docs extra,
    renders_run n s = Some (docs, (s ++ extra)%list)
    /\ List.length docs = n
    /\ Forall (fun doc => doc = fst (App h) /\ markup doc = markup (fst (App h))) docs
    /\ heap_of (s ++ extra)%list = Some h.
Proof.
  intros E.
  exists (repeat (fst (App h)) n), (List.concat (repeat (created_by_render h) n)).
  split; [now apply renders_run_bound|].
  split; [apply repeat_length|].
  split; [|now apply heap_of_grows].
  apply Forall_forall. intros doc Hd.
  apply repeat_spec in Hd. now subst.
Qed.

Lemma C5_render_idempotent_witness :
  exists docs extra,
    renders_run 2 module_store = Some (docs, (module_store ++ extra)%list)
    /\ List.length docs = 2%nat
    /\ Forall (fun doc => doc = fst (App module_load)
                          /\ textContent doc = textContent (fst (App module_load))) docs
    /\ heap_of (module_store ++ extra)%list = Some module_load.
Proof.
  apply (C5_render_idempotent textContent 2 module_store module_load).
  reflexivity.
Defined.

(** ** The ids of the references *)

(** C6. Every id of the array is an integer, no two entries share an id,
    and the ids are 1, 2, 3, ...: the first is 1 and each next one is one
    more. *)
Theorem C6_reference_ids :
  Forall (fun r => exists n, get r "id" = VNum n) REFERENCES
  /\ NoDup (map (fun r => get r "id") REFERENCES)
  /\ map (fun r => get r "id") REFERENCES =
     map (fun k => VNum (Z.of_nat k)) (seq 1 (List.length REFERENCES)).
Proof.
  split; [|split].
  - repeat constructor; eexists; reflexivity.
  - cbn. repeat constructor; cbn; intuition discriminate.
  - reflexivity.
Qed.

(** ** Optional fields of a reference *)

(** When the property is absent, or present and not empty, the conditional
    of the citation text decides by presence. *)
Lemma optional_part_when_present (pre post : string) (v : value) :
  v = VUndef \/ truthy v = true ->
  optional_part pre v post = VStr (when_present pre v post).
Proof.
  unfold optional_part. intros [-> | T]; [reflexivity|].
  rewrite T. destruct v; [discriminate T | reflexivity | reflexivity].
Qed.

(** A property that is present but empty prints nothing: the conditional
    tests the value, not the presence. The module's data has no such
    property. *)
Lemma optional_part_empty (pre post : string) :
  optional_part pre (VStr EmptyString) post = VStr EmptyString.
Proof. reflexivity. Qed.

Lemma optional_values_nonempty :
  Forall (fun r =>
            Forall (fun k => get r k = VUndef \/ truthy (get r k) = true)
                   ["volume"; "issue"; "pages"])
         REFERENCES.
Proof. repeat (apply Forall_cons || apply Forall_nil); cbn; auto. Qed.

(** C9. In the citation text of every reference the volume is printed as
    ", volume" when the entry has a volume, the issue as "(issue)" when it
    has an issue, the pages as ", pages" when it has pages, and each of
    them as the empty string when the entry lacks the property. *)
Theorem C9_optional_fields :
  Forall2
    (fun r item =>
       optional_parts item =
       [ Val (VStr (when_present ", " (get r "volume") EmptyString));
         Val (VStr (when_present "(" (get r "issue") ")"));
         Val (VStr (when_present ", " (get r "pages") EmptyString)) ])
    REFERENCES (reference_items page)
  /\ map (fun item => textContent (citation_text item)) (reference_items page) =
     [ "Smith, J., & Johnson, K.. (2024). Scalable API Architecture Patterns. Journal of Systems Architecture, 142, 102889.";
       "Chen, L., et al.. (2024). Async Performance Benchmarks in Python. Proceedings of the 2024 Python Conference, 234-251.";
       "Williams, R., & Davis, M.. (2023). Microservices Communication Patterns. IEEE Software, 40(3), 45-58." ].
Proof.
  unfold page. rewrite reference_items_any_heap. split; [|reflexivity].
  pose proof optional_values_nonempty as H. cbn [references module_load].
  induction H as [|r l Hr _ IH]; cbn [map]; constructor; [|exact IH].
  inversion Hr as [|? ? Hv Hr1]; subst.
  inversion Hr1 as [|? ? Hi Hr2]; subst.
  inversion Hr2 as [|? ? Hp _]; subst.
  unfold optional_parts, citation_text, reference_item.
  cbn [children_of nth skipn firstn].
  now rewrite !optional_part_when_present by assumption.
Qed.

(** ** Missing data *)

(** C7, as first stated, fails: the citation text reads [ref.volume] and
    [ref.issue] of every entry, and the second reference has neither; its
    render takes the empty alternative of the conditional. *)
Lemma C7_some_read_is_absent :
  every_read_present module_load = false
  /\ In "volume" reference_reads
  /\ get (nth 1 REFERENCES []) "volume" = VUndef
  /\ nth 0 (optional_parts (nth 1 (reference_items page) (Lit EmptyString))) (Lit EmptyString)
     = Val (VStr EmptyString).
Proof.
  split; [reflexivity|]. split; [cbn; tauto|]. split; [reflexivity|].
  unfold page. rewrite reference_items_any_heap. reflexivity.
Qed.

(** C7, as amended. A render takes no argument, and in the store of the
    loaded module it does not throw: it returns the page. No interpolated
    value of the page is undefined and the word undefined is not printed:
    every property read from a finding, from an author, and every
    unguarded property read from a reference is present. The only absent
    properties that are read are the optional volume of reference 2 and
    issue of references 1 and 2; each is guarded by a conditional, and in
    the page the part of each absent property is the empty string. *)
Theorem C7_render_total :
  (exists s', App_run module_store = Some (page, s'))
  /\ (forall s h, heap_of s = Some h -> exists s', App_run s = Some (fst (App h), s'))
  /\ defined_everywhere page = true
  /\ occurs_in "undefined" (textContent page) = false
  /\ all_present finding_reads KEY_FINDINGS = true
  /\ all_present author_reads AUTHORS = true
  /\ all_present reference_required REFERENCES = true
  /\ (forall r k, In r REFERENCES -> In k reference_reads ->
        (get r k = VUndef <->
         (k = "volume" /\ get r "id" = VNum 2)
         \/ (k = "issue" /\ (get r "id" = VNum 1 \/ get r "id" = VNum 2))))
  /\ Forall2
       (fun r item =>
          Forall2 (fun k part => get r k = VUndef -> part = Val (VStr EmptyString))
                  ["volume"; "issue"; "pages"] (optional_parts item))
       REFERENCES (reference_items page)
  /\ map (fun item => map textContent (optional_parts item)) (reference_items page) =
     [ [", 142"; EmptyString; ", 102889"];
       [EmptyString; EmptyString; ", 234-251"];
       [", 40"; "(3)"; ", 45-58"] ].
Proof.
  split; [eexists; apply (App_run_bound module_store module_load); reflexivity|].
  split; [intros s h E; eexists; now apply App_run_bound|].
  split; [vm_compute; reflexivity|].
  split; [vm_compute; reflexivity|].
  do 3 (split; [reflexivity|]).
  split.
  - intros r k Hr Hk.
    cbn in Hr, Hk.
    repeat (destruct Hr as [<-|Hr]; [|]); try contradiction;
      repeat (destruct Hk as [<-|Hk]; [|]); try contradiction;
      cbn; split; intros H; try discriminate H; auto;
      repeat match goal with
             | H : _ \/ _ |- _ => destruct H
             | H : _ /\ _ |- _ => destruct H
             end;
      discriminate.
  - unfold page. rewrite reference_items_any_heap. split; [|reflexivity].
    cbn [references module_load REFERENCES map].
    repeat (apply Forall2_cons || apply Forall2_nil);
      cbn; intros H; (reflexivity || discriminate H).
Qed.

(** ** The Tailwind configuration *)

(** C8. The configuration names a non-empty list of paths to scan, exactly
    two colours ([flask] and [dark]), one font stack ([mono]) and exactly
    two shadows ([neon] and [neon-strong]). *)
Theorem C8_tailwind_config :
  let ext := Tailwind.extend (Tailwind.theme Tailwind.default_export) in
  Tailwind.content Tailwind.default_export <> []
  /\ map fst (Tailwind.colors ext) = ["flask"; "dark"]
  /\ List.length (Tailwind.colors ext) = 2%nat
  /\ map fst (Tailwind.fontFamily ext) = ["mono"]
  /\ List.length (Tailwind.fontFamily ext) = 1%nat
  /\ map fst (Tailwind.boxShadow ext) = ["neon"; "neon-strong"]
  /\ List.length (Tailwind.boxShadow ext) = 2%nat.
Proof.
  cbn. repeat split; discriminate.
Qed.

(** ** Sources of the findings *)

(** C10. The source of every finding is the id of a reference of the
    module between brackets. *)
Theorem C10_finding_sources :
  Forall (fun f =>
            exists r n,
              In r REFERENCES
              /\ get r "id" = VNum n
              /\ get f "source" = VStr (bracketed (VNum n)))
         KEY_FINDINGS.
Proof.
  repeat constructor.
  - exists (nth 1 REFERENCES []), 2. cbn. auto.
  - exists (nth 1 REFERENCES []), 2. cbn. auto.
  - exists (nth 0 REFERENCES []), 1. cbn. auto.
Qed.

(** * Further properties of the page *)

Import Probe.

(** ** Joining *)

Section JoinMore.

Variable sep : string.

Lemma concat_app (l1 l2 : list string) :
  l1 <> [] -> l2 <> [] ->
  String.concat sep (l1 ++ l2)%list = String.concat sep l1 ++ sep ++ String.concat sep l2.
Proof.
  intros H1 H2. induction l1 as [|x l1 IH]; [contradiction|].
  destruct l1 as [|y l1].
  - destruct l2 as [|z l2]; [contradiction|]. reflexivity.
  - change (String.concat sep ((x :: y :: l1) ++ l2)%list)
      with (x ++ sep ++ String.concat sep ((y :: l1) ++ l2)%list).
    rewrite IH by discriminate.
    change (String.concat sep (x :: y :: l1))
      with (x ++ sep ++ String.concat sep (y :: l1)).
    now rewrite !append_assoc.
Qed.

Lemma append_empty_r (a : string) : a ++ EmptyString = a.
Proof. induction a as [|c a IH]; simpl; [reflexivity | now rewrite IH]. Qed.

Lemma concat_empty_cons (a : string) (l : list string) :
  String.concat EmptyString (a :: l) = a ++ String.concat EmptyString l.
Proof. destruct l; cbn; [now rewrite append_empty_r | reflexivity]. Qed.

Lemma concat_cons (x : string) (l : list string) :
  l <> [] -> String.concat sep (x :: l) = x ++ sep ++ String.concat sep l.
Proof. destruct l; [contradiction | reflexivity]. Qed.

(** The first element stands alone; every further one follows a
    separator. *)
Lemma concat_first (x : string) (l : list string) :
  String.concat sep (x :: l) =
  x ++ String.concat EmptyString (map (fun y => sep ++ y) l).
Proof.
  revert x. induction l as [|y l IH]; intros x.
  - cbn. now rewrite append_empty_r.
  - rewrite concat_cons by discriminate. rewrite IH. cbn [map].
    rewrite concat_empty_cons. now rewrite append_assoc.
Qed.

(** The last element stands alone; every earlier one is followed by a
    separator. *)
Lemma concat_last (l : list string) (z : string) :
  String.concat sep (l ++ [z])%list =
  String.concat EmptyString (map (fun y => y ++ sep) l) ++ z.
Proof.
  induction l as [|x l IH]; [reflexivity|].
  change ((x :: l) ++ [z])%list with (x :: (l ++ [z]))%list.
  rewrite concat_cons by (destruct l; discriminate).
  rewrite IH. cbn [map]. rewrite concat_empty_cons. now rewrite !append_assoc.
Qed.

Lemma concat_shape (l : list string) :
  String.concat sep l =
    match l with
    | [] => EmptyString
    | x :: l' => x ++ String.concat EmptyString (map (fun y => sep ++ y) l')
    end
  /\ String.concat sep l =
    match rev l with
    | [] => EmptyString
    | z :: l' => String.concat EmptyString (map (fun y => y ++ sep) (rev l')) ++ z
    end.
Proof.
  split.
  - destruct l as [|x l]; [reflexivity | apply concat_first].
  - destruct (rev l) as [|z l'] eqn:E;
      apply (f_equal (@rev string)) in E; rewrite rev_involutive in E; subst l.
    + reflexivity.
    + cbn [rev]. apply concat_last.
Qed.

End JoinMore.

(** X1. Splitting the author array in two non-empty parts splits each line
    of the author block at one separator. *)
Theorem X1_author_lines_split (h h1 h2 : heap) :
  authors h = (authors h1 ++ authors h2)%list ->
  authors h1 <> [] -> authors h2 <> [] ->
  author_names (fst (App h)) =
    author_names (fst (App h1)) ++ ", " ++ author_names (fst (App h2))
  /\ author_affiliations (fst (App h)) =
    author_affiliations (fst (App h1)) ++ "; " ++ author_affiliations (fst (App h2)).
Proof.
  intros E H1 H2.
  rewrite !author_names_any_heap, !author_affiliations_any_heap, !join_concat, E.
  rewrite !map_app.
  split; apply concat_app; destruct (authors h1), (authors h2); cbn; congruence.
Qed.

Lemma X1_author_lines_split_witness :
  author_names page =
    "Dr. Sarah Mitchell" ++ ", " ++ "Prof. James Chen, Dr. Emily Watson"
  /\ author_affiliations page =
    "Department of Computer Science, Stanford University" ++ "; "
    ++ "Software Systems Laboratory, MIT; Data Science Institute, Oxford University".
Proof.
  apply (X1_author_lines_split module_load
           (Heap [] [] (firstn 1 AUTHORS)) (Heap [] [] (skipn 1 AUTHORS)));
    [reflexivity | discriminate | discriminate].
Defined.

(** X2. Each line of the author block is the text of the first author
    followed, for every further author, by the separator and the text of
    that author; read from the end, it is the text of the last author
    preceded, for every earlier author, by the text of that author and the
    separator. No separator leads or trails, and an empty array gives an
    empty line. *)
Theorem X2_author_lines_shape (h : heap) :
  let names := map (fun a => text_of (get a "name")) (authors h) in
  let affiliations := map (fun a => text_of (get a "affiliation")) (authors h) in
  (author_names (fst (App h)) =
     match names with
     | [] => EmptyString
     | x :: l => x ++ String.concat EmptyString (map (fun y => ", " ++ y) l)
     end
   /\ author_names (fst (App h)) =
     match rev names with
     | [] => EmptyString
     | z :: l => String.concat EmptyString (map (fun y => y ++ ", ") (rev l)) ++ z
     end)
  /\ (author_affiliations (fst (App h)) =
        match affiliations with
        | [] => EmptyString
        | x :: l => x ++ String.concat EmptyString (map (fun y => "; " ++ y) l)
        end
      /\ author_affiliations (fst (App h)) =
        match rev affiliations with
        | [] => EmptyString
        | z :: l => String.concat EmptyString (map (fun y => y ++ "; ") (rev l)) ++ z
        end).
Proof.
  cbn zeta.
  rewrite author_names_any_heap, author_affiliations_any_heap, !join_concat, !map_map.
  split; apply concat_shape.
Qed.


(** ** Keys and numbers of the mapped elements *)

Section Mapped.

Context {A B C : Type}.

Lemma map_map_from (g : B -> C) (g' : A -> C) (f : A -> Z -> B) (l : list A) (i : Z) :
  (forall x j, g (f x j) = g' x) ->
  map g (map_from f i l) = map g' l.
Proof.
  intros H. revert i.
  induction l as [|x l IH]; intros i; cbn [map_from map]; [reflexivity|].
  now rewrite H, IH.
Qed.

(** What depends on the position alone is read off the positions
    [i], [i + 1], ... *)
Lemma map_map_from_index (g : B -> C) (g' : Z -> C) (f : A -> Z -> B) (l : list A) (i : Z) :
  (forall x j, g (f x j) = g' j) ->
  map g (map_from f i l) =
  map (fun k => g' (i + Z.of_nat k)) (seq 0 (List.length l)).
Proof.
  intros H. revert i.
  induction l as [|x l IH]; intros i; [reflexivity|].
  cbn [map_from map List.length seq]. rewrite H, IH, Z.add_0_r. f_equal.
  rewrite <- seq_shift, map_map. apply map_ext. intros k. f_equal. lia.
Qed.

Lemma NoDup_map_inj (f : A -> B) (l : list A) :
  (forall x y, f x = f y -> x = y) -> NoDup l -> NoDup (map f l).
Proof.
  intros Hf. induction 1 as [|x l Hx _ IH]; cbn [map]; constructor; [|exact IH].
  intros Hin. apply in_map_iff in Hin as (y & Ey & Hy).
  apply Hf in Ey. now subst.
Qed.

Lemma NoDup_map_inj_in (f : A -> B) (l : list A) :
  (forall x y, In x l -> In y l -> f x = f y -> x = y) ->
  NoDup l -> NoDup (map f l).
Proof.
  intros Hf Hl. induction Hl as [|x l Hx _ IH]; cbn [map]; constructor.
  - intros Hin. apply in_map_iff in Hin as (y & Ey & Hy).
    assert (y = x) by (apply Hf; [now right | now left | exact Ey]).
    now subst.
  - apply IH. intros a b Ha Hb. apply Hf; now right.
Qed.

End Mapped.

(** X3. An optional part of a citation is printed exactly when the value of
    the property is truthy: a volume, issue or pages that is missing, the
    empty string or 0 prints nothing, and any other value prints with its
    punctuation. *)
Theorem X3_optional_part_iff_truthy (r : obj) :
  let part (i : nat) := textContent (nth i (optional_parts (reference_item r)) (Lit EmptyString)) in
  (part 0%nat = (if truthy (get r "volume") then ", " ++ to_string (get r "volume") else EmptyString)
   /\ (part 0%nat = EmptyString <-> truthy (get r "volume") = false))
  /\ (part 1%nat = (if truthy (get r "issue") then "(" ++ to_string (get r "issue") ++ ")" else EmptyString)
      /\ (part 1%nat = EmptyString <-> truthy (get r "issue") = false))
  /\ (part 2%nat = (if truthy (get r "pages") then ", " ++ to_string (get r "pages") else EmptyString)
      /\ (part 2%nat = EmptyString <-> truthy (get r "pages") = false)).
Proof.
  cbn zeta. unfold optional_parts, citation_text, reference_item.
  cbn [children_of nth skipn firstn textContent]. unfold optional_part.
  rewrite !append_empty_r.
  repeat split;
    match goal with
    | |- context [truthy ?v] => destruct (truthy v)
    end;
    cbn; try reflexivity; try discriminate; intros H; discriminate H.
Qed.

(** X4. The key of an entry of the references list is the id of its
    reference as a string, so the ids 1 and "1" give the same key. When the
    ids of the array are safe integers, the keys are their decimal strings
    in the order of the array, and the keys are pairwise distinct exactly
    when the ids are. *)
Theorem X4_reference_keys (h : heap) :
  Forall safe_id (references h) ->
  map element_key (reference_items (fst (App h))) =
    map (fun r => key_text (get r "id")) (references h)
  /\ (NoDup (map element_key (reference_items (fst (App h))))
      <-> NoDup (map (fun r => get r "id") (references h)))
  /\ element_key (reference_item [("id", VNum 1)]) =
     element_key (reference_item [("id", VStr "1")]).
Proof.
  intros Hsafe.
  assert (map element_key (reference_items (fst (App h))) =
          map key_text (map (fun r => get r "id") (references h))) as E.
  { rewrite reference_items_any_heap, !map_map. apply map_ext. reflexivity. }
  split; [now rewrite E, map_map|]. split; [|reflexivity].
  rewrite E. split; [apply NoDup_map_inv|].
  apply NoDup_map_inj_in.
  assert (forall v, In v (map (fun r => get r "id") (references h)) ->
                    exists n, v = VNum n) as Hnum.
  { intros v Hv. apply in_map_iff in Hv as (r & <- & Hr).
    destruct (proj1 (Forall_forall _ _) Hsafe r Hr) as (n & En & _).
    now exists n. }
  intros x y Hx Hy Exy.
  destruct (Hnum x Hx) as (n & ->), (Hnum y Hy) as (m & ->).
  injection Exy as Exy. f_equal. now apply Z_to_string_inj.
Qed.

Lemma X4_reference_keys_witness :
  map element_key (reference_items page) = [Some "1"; Some "2"; Some "3"]
  /\ (NoDup (map element_key (reference_items page))
      <-> NoDup (map (fun r => get r "id") REFERENCES))
  /\ element_key (reference_item [("id", VNum 1)]) =
     element_key (reference_item [("id", VStr "1")]).
Proof.
  apply (X4_reference_keys module_load).
  repeat (apply Forall_cons || apply Forall_nil);
    eexists; (split; [reflexivity | unfold safe_integer; cbn; lia]).
Defined.

(** X5. The keys of the cards of the finding grid are the positions
    0, 1, 2, ... of the entries: they are pairwise distinct whatever the
    array holds, equal entries included. *)
Theorem X5_finding_keys_distinct (h : heap) :
  map (attr "key") (finding_cards (fst (App h))) =
    map (fun k => Some (PVal (VNum (Z.of_nat k)))) (seq 0 (List.length (key_findings h)))
  /\ NoDup (map (attr "key") (finding_cards (fst (App h)))).
Proof.
  assert (map (attr "key") (finding_cards (fst (App h))) =
          map (fun k => Some (PVal (VNum (Z.of_nat k))))
              (seq 0 (List.length (key_findings h)))) as E.
  { rewrite finding_cards_any_heap. unfold map_idx.
    rewrite (map_map_from_index (attr "key") (fun j => Some (PVal (VNum j))))
      by reflexivity.
    apply map_ext. intros k. now rewrite Z.add_0_l. }
  split; [exact E|]. rewrite E.
  apply NoDup_map_inj; [|apply seq_NoDup].
  intros x y [= H]. lia.
Qed.

(** X6. Two references whose ids are safe integers show the same number
    exactly when the ids are equal. *)
Theorem X6_numbers_distinguish_ids (r1 r2 : obj) (n1 n2 : Z) :
  get r1 "id" = VNum n1 -> get r2 "id" = VNum n2 ->
  safe_integer n1 -> safe_integer n2 ->
  (displayed_number (reference_item r1) = displayed_number (reference_item r2)
   <-> n1 = n2).
Proof.
  intros E1 E2 _ _. rewrite !displayed_number_item, E1, E2. split.
  - apply bracketed_num_inj.
  - now intros ->.
Qed.

Lemma X6_numbers_distinguish_ids_witness :
  displayed_number (reference_item (nth 0 REFERENCES []))
  = displayed_number (reference_item (nth 2 REFERENCES []))
  <-> 1 = 3.
Proof.
  apply (X6_numbers_distinguish_ids (nth 0 REFERENCES []) (nth 2 REFERENCES []) 1 3);
    try reflexivity; unfold safe_integer; cbn; lia.
Defined.

(** X7. Every card of the finding grid shows the description and the
    source of its entry as they are stored, in the order of the array and
    whatever the references array holds: a source is not checked against
    the references. *)
Theorem X7_card_description_source (h : heap) :
  map (fun c => (textContent (card_description c), textContent (card_source c)))
      (finding_cards (fst (App h))) =
  map (fun f => (text_of (get f "description"), text_of (get f "source")))
      (key_findings h).
Proof.
  rewrite finding_cards_any_heap. unfold map_idx.
  apply map_map_from. intros f j. reflexivity.
Qed.

(** ** Undefined values in the tree *)

Lemma forallb_map_from {A : Type} (g : jsx -> bool) (g' : A -> bool)
      (f : A -> Z -> jsx) (l : list A) (i : Z) :
  (forall x j, g (f x j) = g' x) ->
  forallb g (map_from f i l) = forallb g' l.
Proof.
  intros H. revert i.
  induction l as [|x l IH]; intros i; cbn [map_from forallb]; [reflexivity|].
  now rewrite H, IH.
Qed.

Lemma forallb_map {A : Type} (g : jsx -> bool) (g' : A -> bool) (f : A -> jsx) (l : list A) :
  (forall x, g (f x) = g' x) ->
  forallb g (map f l) = forallb g' l.
Proof.
  intros H. induction l as [|x l IH]; cbn [map forallb]; [reflexivity|].
  now rewrite H, IH.
Qed.

Lemma defined_finding_card (f : obj) (j : Z) :
  defined_everywhere (finding_card f j) = forallb (present f) finding_reads.
Proof.
  unfold finding_card, finding_reads, present.
  cbn [defined_everywhere forallb].
  destruct (get f "value"), (get f "metric"), (get f "description"), (get f "source");
    reflexivity.
Qed.

Lemma defined_reference_item (r : obj) :
  defined_everywhere (reference_item r) = forallb (present r) reference_required.
Proof.
  unfold reference_item, reference_required, present, optional_part.
  cbn [defined_everywhere forallb].
  destruct (truthy (get r "volume")), (truthy (get r "issue")), (truthy (get r "pages"));
    destruct (get r "id"), (get r "authors"), (get r "year"), (get r "title"),
      (get r "journal"); reflexivity.
Qed.

(** X8. The tree holds an undefined value exactly when some finding lacks
    its value, metric, description or source, or some reference lacks its
    id, authors, year, title or journal. A missing author name or
    affiliation and a missing volume, issue or pages never put an
    undefined value in the tree. *)
Theorem X8_undefined_iff_unguarded_missing (h : heap) :
  defined_everywhere (fst (App h)) =
  all_present finding_reads (key_findings h)
  && all_present reference_required (references h).
Proof.
  unfold App, fst, all_present.
  rewrite <- (forallb_map_from defined_everywhere _ finding_card (key_findings h) 0
                defined_finding_card).
  rewrite <- (forallb_map defined_everywhere _ reference_item (references h)
                defined_reference_item).
  cbn [defined_everywhere forallb andb header title_block author_block abstract
       introduction methods results discussion references_section footer
       finding_grid results_table nav_link icon meta_item citation
       methodology_step table_row footer_item].
  unfold map_idx.
  now rewrite !andb_true_r.
Qed.

(** ** Citation markers, links and class names *)

Section Markers.

Variable h : heap.

Lemma citations_any_heap :
  by_class "citation" (fst (App h)) =
  (citation "[1]" :: citation "[3]"
   :: map (fun f => Elem "span" (cls "citation mt-2 inline-block") [Val (get f "source")])
          (key_findings h)
   ++ [citation "[2]"])%list.
Proof.
  assert (forall (l : list obj) i,
             filter (has_class "citation") (flat_map elements (map_from finding_card i l)) =
             map (fun f => Elem "span" (cls "citation mt-2 inline-block") [Val (get f "source")]) l)
    as Hcards.
  { induction l as [|f l IH]; intros i; cbn [map_from flat_map map]; [reflexivity|].
    rewrite filter_app, IH. reflexivity. }
  unfold by_class. open_page. rewrite ?filter_app, ?Hcards.
  repeat first
    [ rewrite filter_app | rewrite Hcards
    | rewrite sift_map_none by reflexivity
    | progress simpl filter ].
  rewrite ?app_nil_r. reflexivity.
Qed.

End Markers.

(** X9. The citation markers of the page are, in document order, [1] in
    the abstract, [3] in the introduction, the source of every finding,
    and [2] in the discussion. On the module's data every marker is the
    number of an entry of the references list, and every entry of the list
    is cited by some marker. *)
Theorem X9_citation_markers :
  (forall h, citation_markers (fst (App h)) =
             ("[1]" :: "[3]"
              :: map (fun f => text_of (get f "source")) (key_findings h)
              ++ ["[2]"])%list)
  /\ Forall (fun m => In m (map displayed_number (reference_items page)))
            (citation_markers page)
  /\ Forall (fun n => In n (citation_markers page))
            (map displayed_number (reference_items page)).
Proof.
  assert (forall h, citation_markers (fst (App h)) =
             ("[1]" :: "[3]"
              :: map (fun f => text_of (get f "source")) (key_findings h)
              ++ ["[2]"])%list) as Hany.
  { intros h. unfold citation_markers. rewrite citations_any_heap.
    cbn [map]. rewrite map_app, map_map. reflexivity. }
  split; [exact Hany|].
  unfold page. rewrite Hany, reference_items_any_heap.
  split; repeat (apply Forall_cons || apply Forall_nil); cbn; tauto.
Qed.

(** X10. Whatever the arrays hold, the only elements of the page that carry
    a link target are the five navigation anchors of the header, and the
    target of each is "#": no link of the page leads anywhere. *)
Theorem X10_links_stay_on_page (h : heap) :
  map (fun e => (tag_of e, attr "href" e, textContent e))
      (filter (has_attr "href") (elements (fst (App h)))) =
  [ ("a", Some (PStr "#"), "Abstract");
    ("a", Some (PStr "#"), "Introduction");
    ("a", Some (PStr "#"), "Methods");
    ("a", Some (PStr "#"), "Results");
    ("a", Some (PStr "#"), "Discussion") ]
  /\ by_tag "a" (fst (App h)) = filter (has_attr "href") (elements (fst (App h))).
Proof.
  unfold by_tag. split; open_page; sift; reflexivity.
Qed.

(** X11. The configuration adds the names flask, dark, mono, neon and
    neon-strong to the theme, and, whatever the arrays hold, no class
    attribute of the page mentions any of them. *)
Theorem X11_custom_tokens_unused (h : heap) :
  custom_tokens Tailwind.default_export = ["flask"; "dark"; "mono"; "neon"; "neon-strong"]
  /\ filter names_custom_token (elements (fst (App h))) = [].
Proof.
  split; [reflexivity|]. open_page. sift. reflexivity.
Qed.

(** ** The properties a render reads *)

Ltac split_agree H :=
  unfold agree in H;
  repeat match type of H with
         | Forall _ (_ :: _) => apply Forall_cons_iff in H; destruct H as [? H]
         end.

Lemma reference_item_agree (r r' : obj) :
  agree reference_reads r r' -> reference_item r = reference_item r'.
Proof.
  intros H. unfold reference_reads in H. split_agree H.
  unfold reference_item. congruence.
Qed.

Lemma finding_card_agree (f f' : obj) (j : Z) :
  agree finding_reads f f' -> finding_card f j = finding_card f' j.
Proof.
  intros H. unfold finding_reads in H. split_agree H.
  unfold finding_card. congruence.
Qed.

Lemma map_from_agree (l l' : list obj) (i : Z) :
  Forall2 (agree finding_reads) l l' ->
  map_from finding_card i l = map_from finding_card i l'.
Proof.
  intros H. revert i.
  induction H as [|f f' l l' Hf _ IH]; intros i; cbn [map_from]; [reflexivity|].
  now rewrite (finding_card_agree f f' i Hf), IH.
Qed.

Lemma map_get_agree (ks : list string) (k : string) (l l' : list obj) :
  In k ks -> Forall2 (agree ks) l l' ->
  map (fun a => get a k) l = map (fun a => get a k) l'.
Proof.
  intros Hk H. induction H as [|a a' l l' Ha _ IH]; cbn [map]; [reflexivity|].
  rewrite IH. f_equal. unfold agree in Ha.
  now apply (proj1 (Forall_forall _ _) Ha).
Qed.

(** X12. A render depends on the arrays only through the properties its
    callbacks read: id, authors, year, title, journal, volume, issue and
    pages of a reference; value, metric, description and source of a
    finding; name and affiliation of an author. Two heaps whose entries
    agree on these, position by position, render the same tree, whatever
    other properties the entries carry and in whatever order they are
    written. *)
Theorem X12_render_reads_listed_only (h h' : heap) :
  Forall2 (agree reference_reads) (references h) (references h') ->
  Forall2 (agree finding_reads) (key_findings h) (key_findings h') ->
  Forall2 (agree author_reads) (authors h) (authors h') ->
  fst (App h) = fst (App h').
Proof.
  intros Hr Hf Ha.
  assert (map reference_item (references h) = map reference_item (references h')) as Er.
  { induction Hr as [|r r' l l' H _ IH]; cbn [map]; [reflexivity|].
    now rewrite (reference_item_agree r r' H), IH. }
  pose proof (map_from_agree _ _ 0 Hf) as Ef.
  pose proof (map_get_agree author_reads "name" _ _ (or_introl eq_refl) Ha) as En.
  pose proof (map_get_agree author_reads "affiliation" _ _
                (or_intror (or_introl eq_refl)) Ha) as Eaf.
  unfold App, fst, title_block, author_block, results, finding_grid,
    references_section, map_idx.
  now rewrite Er, Ef, En, Eaf.
Qed.

Lemma X12_render_reads_listed_only_witness :
  fst (App module_load) =
  fst (App (Heap (map (fun r => ("doi", VStr "10.1234/x") :: rev r) REFERENCES)
                 (map (fun f => rev f) KEY_FINDINGS)
                 (map (fun a => ("orcid", VNum 7) :: a) AUTHORS))).
Proof.
  apply X12_render_reads_listed_only;
    repeat (apply Forall2_cons || apply Forall2_nil);
    repeat (apply Forall_cons || apply Forall_nil); reflexivity.
Defined.

(** X13. Each of these properties is read: an entry that carries only that
    property renders differently from an entry that carries nothing. *)
Theorem X13_every_listed_property_is_read :
  Forall (fun k => reference_item [(k, VStr "x")] <> reference_item []) reference_reads
  /\ Forall (fun k => finding_card [(k, VStr "x")] 0 <> finding_card [] 0) finding_reads
  /\ Forall (fun k => author_block (Heap [] [] [[(k, VStr "x")]])
                      <> author_block (Heap [] [] [[]])) author_reads.
Proof.
  repeat split; repeat (apply Forall_cons || apply Forall_nil);
    vm_compute; discriminate.
Qed.
